(** * TissueMAPS viewer: the [Viewport] and the [ToolbarCtrl]

    A shallow embedding of [app/src/core/viewport/Viewport.ts] and of
    [app/src/viewer/toolui/toolbar/tmToolbar.ts].

    JavaScript numbers are modelled as rationals ([Q]): the only arithmetic
    the two classes perform is a halving and a negation, both exact on the
    pixel sizes a ChannelLayer carries.  Objects are compared by reference,
    so every layer carries the identity of its object.  A method is a
    computation in a state monad over the receiver, with an exception layer
    placed outside the state: what a method has written before it throws is
    still there once the exception reaches the caller. *)

From Stdlib Require Import List ZArith QArith String Bool Lia.
From ExtLib Require Import Structures.Monad Structures.MonadState
  Structures.MonadExc Data.Monads.StateMonad Data.Monads.EitherMonad.
Import ListNotations.
Import MonadNotation.
Local Open Scope monad_scope.
Local Open Scope Z_scope.

(** ** Arrays

    The three [Array.prototype] methods the sources call.  Negative and
    out-of-range arguments of [splice] are clamped as ECMAScript does. *)
Module JsArray.

Section Ops.
Context {A : Type}.

(** Strict equality ([===]) on the elements. *)
Variable same : A -> A -> bool.

Fixpoint indexOfFrom (k : Z) (x : A) (xs : list A) : Z :=
  match xs with
  | [] => -1
  | y :: ys => if same y x then k else indexOfFrom (k + 1) x ys
  end.

Definition indexOf (x : A) (xs : list A) : Z := indexOfFrom 0 x xs.

Definition push (xs : list A) (x : A) : list A := xs ++ [x].

Definition actualStart (start : Z) (xs : list A) : Z :=
  let len := Z.of_nat (List.length xs) in
  if start <? 0 then Z.max (len + start) 0 else Z.min start len.

Definition actualDeleteCount (start deleteCount : Z) (xs : list A) : Z :=
  let len := Z.of_nat (List.length xs) in
  Z.min (Z.max deleteCount 0) (len - actualStart start xs).

(** The array after [xs.splice(start, deleteCount)]. *)
Definition splice (start deleteCount : Z) (xs : list A) : list A :=
  let s := actualStart start xs in
  let d := actualDeleteCount start deleteCount xs in
  firstn (Z.to_nat s) xs ++ skipn (Z.to_nat (s + d)) xs.

(** How many elements of [xs] are the object [x]. *)
Definition occurrences (x : A) (xs : list A) : nat :=
  List.length (filter (fun y => same y x) xs).

Definition includes (x : A) (xs : list A) : bool :=
  existsb (fun y => same y x) xs.
End Ops.

End JsArray.

(** ** Methods as computations

    [Js S A] is a method on a receiver of type [S] returning an [A] or
    throwing an [Error]; [run] gives the completion and the receiver as the
    method left it. *)
Module Js.

Definition Error := string.

Definition Js (S : Type) : Type -> Type := eitherT Error (state S).

Definition run {S A : Type} (c : Js S A) (s : S) : (Error + A) * S :=
  runState (unEitherT c) s.

Definition Normal {A : Type} (a : A) : Error + A := inr a.
Definition Throw {A : Type} (e : Error) : Error + A := inl e.

(** Plain values: what an object literal can hold. *)
#[local] Set Warnings "-register-all".
Inductive Value :=
| Num (n : Q)
| Str (s : string)
| Arr (items : list Value)
| Obj (properties : list (string * Value)).

(** [o[key]]: the value of the property, [None] for [undefined]. *)
Definition getProperty (key : string) (o : Value) : option Value :=
  match o with
  | Obj properties =>
      option_map snd (find (fun kv => String.eqb (fst kv) key) properties)
  | _ => None
  end.

End Js.

(** ** The rendering engine

    What the Viewport uses of the map of the rendering engine: its render
    list, its view, its target element and its size. *)
Module Ol.

Definition number := Q.
Definition Coordinate := list number.
Definition Extent := list number.
Definition Size := (number * number)%type.

(** A DOM element, by reference. *)
Definition Element := nat.

Record Projection := mkProjection {
  code : string;
  units : string;
  extent : Extent
}.

Record View := mkView {
  projection : Projection;
  center : Coordinate;
  zoom : Z
}.

(** A geometry, as the coordinates of its vertices. *)
Definition SimpleGeometry := list Coordinate.

Record Feature := mkFeature { geometry : SimpleGeometry }.

Record FitOptions := mkFitOptions { padding : list number }.

End Ol.

(** ** Layers *)
Module Layers.
Import Ol.

(** The classes of layer: a ChannelLayer carries the size of its image. *)
Inductive LayerClass :=
| ChannelLayer (imageSize : number * number)
| OtherLayer.

Record Layer := mkLayer {
  layerRef : nat;
  layerClass : LayerClass
}.

(** [a === b] on layer objects. *)
Definition sameLayer (a b : Layer) : bool := Nat.eqb (layerRef a) (layerRef b).

(** [layer instanceof ChannelLayer]. *)
Definition instanceofChannelLayer (layer : Layer) : bool :=
  match layerClass layer with
  | ChannelLayer _ => true
  | OtherLayer => false
  end.

Definition imageSize (layer : Layer) : option (number * number) :=
  match layerClass layer with
  | ChannelLayer sz => Some sz
  | OtherLayer => None
  end.

Record OlMap := mkOlMap {
  olLayers : list Layer;
  olView : View;
  olTarget : option Element;
  olSize : option Size
}.

Definition setView (v : View) (m : OlMap) : OlMap :=
  mkOlMap (olLayers m) v (olTarget m) (olSize m).

Definition setTarget (e : Element) (m : OlMap) : OlMap :=
  mkOlMap (olLayers m) (olView m) (Some e) (olSize m).

Definition setLayers (ls : list Layer) (m : OlMap) : OlMap :=
  mkOlMap ls (olView m) (olTarget m) (olSize m).

Definition setSize (s : option Size) (m : OlMap) : OlMap :=
  mkOlMap (olLayers m) (olView m) (olTarget m) s.

Fixpoint removeFirst (layer : Layer) (ls : list Layer) : list Layer :=
  match ls with
  | [] => []
  | l :: rest => if sameLayer l layer then rest else l :: removeFirst layer rest
  end.

(** Modelled from the spec: [Layer.addToMap] is declared with the layer
    classes, which are not among the sources; the specification says that
    adding a layer "attaches layer to the map's render list". *)
Definition addToMap (layer : Layer) (m : OlMap) : OlMap :=
  setLayers (JsArray.push (olLayers m) layer) m.

(** Modelled from the spec: [Layer.removeFromMap] is declared with the layer
    classes, which are not among the sources; the specification says that
    removing a layer "detaches from the map". *)
Definition removeFromMap (layer : Layer) (m : OlMap) : OlMap :=
  setLayers (removeFirst layer (olLayers m)) m.

End Layers.

(** ** Map objects

    A map object has a visual, and the visual holds the feature the rendering
    engine draws. *)
Module MapObjects.
Import Ol.

Record Visual := mkVisual { olFeature : Feature }.

Record MapObject := mkMapObject { getVisual : Visual }.

End MapObjects.

(** ** Viewport *)
Module Viewport.
Import Ol Layers MapObjects Js.

Record Viewport := mkViewport {
  map : OlMap;
  layers : list Layer
}.

Definition withMap (f : OlMap -> OlMap) (vp : Viewport) : Viewport :=
  mkViewport (f (map vp)) (layers vp).

Definition withLayers (f : list Layer -> list Layer) (vp : Viewport) : Viewport :=
  mkViewport (map vp) (f (layers vp)).

Definition invalidFirstLayer : Error :=
  "The first layer to be added has to be a ChannelLayer in order to set the view!"%string.

(** Reading [imageSize] off an object that has none. *)
Definition undefinedImageSize : Error :=
  "TypeError: Cannot read property '0' of undefined"%string.

(** The view the specification describes for an image of the given size:
    extent [0, 0, W, H] in pixels, centre (W/2, -H/2), zoom 0.  It is compared
    below with the view [_setView] builds. *)
Definition pixelView (W H : number) : View :=
  mkView (mkProjection "tm" "pixels" [0; 0; W; H]%Q) [W / 2; - (H / 2)]%Q 0.

Section Engine.

(** The view a map of the rendering engine has when it is built without
    one. *)
Variable defaultView : View.

(** [view.fit(geometry, size, options)] of the rendering engine. *)
Variable fit : SimpleGeometry -> option Size -> FitOptions -> View -> View.

(** The size the rendering engine measures of an element. *)
Variable measure : Element -> Size.

(** [new Viewport()]: a map with no layer, no control and no target, and
    an empty list of layers.  The injected services and the alias of the map
    kept on [window] play no part in the methods below. *)
Definition constructor : Viewport :=
  mkViewport (mkOlMap [] defaultView None None) [].

(** [ext[2]] and [ext[3]] of the extent of the projection; an index past the
    end of the array reads [undefined]. *)
Definition mapSize (vp : Viewport) : option number * option number :=
  let ext := extent (projection (olView (map vp))) in
  (nth_error ext 2, nth_error ext 3).

Definition _setView (mapWidth mapHeight : number) : Js Viewport unit :=
  let width := mapWidth in
  let height := mapHeight in
  let center := [width / 2; - height / 2]%Q in
  let extent := [0; 0; width; height]%Q in
  let view := mkView (mkProjection "tm" "pixels" extent) center 0 in
  modify (withMap (setView view)) ;;
  ret tt.

(** The layer goes onto the map first; the check of the first layer and the
    view come after. *)
Definition addLayer (layer : Layer) : Js Viewport unit :=
  modify (withMap (addToMap layer)) ;;
  this <- get ;;
  let alreadyHasLayers := negb (Z.of_nat (List.length (layers this)) =? 0) in
  (if negb alreadyHasLayers && negb (instanceofChannelLayer layer)
   then raise invalidFirstLayer
   else ret tt) ;;
  (if negb alreadyHasLayers
   then match imageSize layer with
        | Some sz => _setView (fst sz) (snd sz)
        | None => raise undefinedImageSize
        end
   else ret tt) ;;
  modify (withLayers (fun ls => JsArray.push ls layer)) ;;
  ret tt.

(** [idx] is handed to [splice] as [indexOf] returns it. *)
Definition removeLayer (layer : Layer) : Js Viewport unit :=
  modify (withMap (removeFromMap layer)) ;;
  this <- get ;;
  let idx := JsArray.indexOf sameLayer layer (layers this) in
  modify (withLayers (JsArray.splice idx 1)) ;;
  ret tt.

(** [map.updateSize()]: the map measures its target again, and has no size
    without a target. *)
Definition update : Js Viewport unit :=
  modify (withMap (fun m => setSize (option_map measure (olTarget m)) m)) ;;
  ret tt.

Definition goToMapObject (obj : MapObject) : Js Viewport unit :=
  let feat := olFeature (getVisual obj) in
  modify (withMap (fun m =>
    setView (fit (geometry feat) (olSize m)
                 (mkFitOptions [100; 100; 100; 100]%Q) (olView m)) m)) ;;
  ret tt.

(** [return <any>{};], the rest of the body being commented out. *)
Definition serialize : Js Viewport Value :=
  ret (Obj []).

Definition renderMap (element : Element) : Js Viewport unit :=
  modify (withMap (setTarget element)) ;;
  ret tt.

End Engine.

(** A caller's use of the two methods that change the layers; a caller that
    catches what [addLayer] throws goes on with the receiver as it was
    left. *)
Inductive Call :=
| AddLayer (layer : Layer)
| RemoveLayer (layer : Layer).

Definition method (c : Call) : Js Viewport unit :=
  match c with
  | AddLayer layer => addLayer layer
  | RemoveLayer layer => removeLayer layer
  end.

Definition call (vp : Viewport) (c : Call) : Viewport := snd (run (method c) vp).

Definition calls (cs : list Call) (vp : Viewport) : Viewport :=
  fold_left call cs vp.

End Viewport.

(** ** ToolbarCtrl

    The controller, the promise of the tool list it subscribes to, and the
    sibling controller it forwards to.  A callback of a promise never runs
    inside [then] or [resolve]: it is queued, and runs at the next digest. *)
Module Toolbar.

Section Tools.
Context {Tool : Type}.

(** The closures the controller hands to [then]; there is one,
    [(tools) => { this.tools = tools; }]. *)
Inductive Callback := SetTools.

Record Promise := mkPromise {
  settled : option (list Tool);
  subscribers : list Callback
}.

Record World := mkWorld {
  tools : list Tool;
  viewerTools : Promise;
  queue : list (Callback * list Tool);
  toggleToolWindow : list Tool
}.

(** [$scope.viewer.tools.then(cb)]. *)
Definition then_ (cb : Callback) (w : World) : World :=
  match settled (viewerTools w) with
  | None =>
      mkWorld (tools w)
              (mkPromise None (subscribers (viewerTools w) ++ [cb]))
              (queue w) (toggleToolWindow w)
  | Some v =>
      mkWorld (tools w) (viewerTools w) (queue w ++ [(cb, v)])
              (toggleToolWindow w)
  end.

(** The source of the tool list resolves its promise with [v]; a promise
    settles once. *)
Definition resolve (v : list Tool) (w : World) : World :=
  match settled (viewerTools w) with
  | None =>
      mkWorld (tools w) (mkPromise (Some v) [])
              (queue w ++ List.map (fun cb => (cb, v)) (subscribers (viewerTools w)))
              (toggleToolWindow w)
  | Some _ => w
  end.

Definition invoke (w : World) (job : Callback * list Tool) : World :=
  match job with
  | (SetTools, ts) =>
      mkWorld ts (viewerTools w) (queue w) (toggleToolWindow w)
  end.

(** A digest runs the queued callbacks in order. *)
Definition digest (w : World) : World :=
  fold_left invoke (queue w)
            (mkWorld (tools w) (viewerTools w) [] (toggleToolWindow w)).

(** The controller is built over the promise and the sibling controller its
    scope holds; [toggleToolWindow] is the list of requests the sibling has
    received. *)
Definition constructor (viewerTools : Promise) (received : list Tool) : World :=
  then_ SetTools (mkWorld [] viewerTools [] received).

Definition clickToolTab (tool : Tool) (w : World) : World :=
  mkWorld (tools w) (viewerTools w) (queue w) (toggleToolWindow w ++ [tool]).

(** The buttons of the toolbar pressed one after the other. *)
Definition clicks (pressed : list Tool) (w : World) : World :=
  fold_left (fun w tool => clickToolTab tool w) pressed w.

End Tools.

Arguments Promise : clear implicits.
Arguments World : clear implicits.

End Toolbar.

(** ** Sample objects

    A map and a few layers to run the methods on. *)
Module Samples.
Import Ol Layers MapObjects Viewport.

Definition worldView : View :=
  mkView (mkProjection "EPSG:3857" "m" []) [] 0.

Definition blankMap : OlMap := mkOlMap [] worldView None None.

Definition dapi : Layer := mkLayer 1 (ChannelLayer (10, 7)%Q).
Definition actin : Layer := mkLayer 2 (ChannelLayer (20, 16)%Q).
Definition cells : Layer := mkLayer 3 OtherLayer.
Definition nuclei : Layer := mkLayer 4 OtherLayer.

End Samples.

(** * Properties *)

(** ** Arrays *)
Section ArrayFacts.
Context {A : Type}.
Variable same : A -> A -> bool.

Local Abbreviation indexOfFrom := (JsArray.indexOfFrom same).
Local Abbreviation indexOf := (JsArray.indexOf same).
Local Abbreviation includes := (JsArray.includes same).
Local Abbreviation occurrences := (JsArray.occurrences same).

Lemma indexOfFrom_absent (x : A) (xs : list A) :
  forall k, includes x xs = false -> indexOfFrom k x xs = -1.
Proof.
  induction xs as [|y ys IH]; intros k Hx; simpl in *.
  - reflexivity.
  - apply orb_false_iff in Hx. destruct Hx as [Hy Hys].
    rewrite Hy. now apply IH.
Qed.

Lemma indexOf_absent (x : A) (xs : list A) :
  includes x xs = false -> indexOf x xs = -1.
Proof. apply indexOfFrom_absent. Qed.

(** A present element is found at its first occurrence. *)
Lemma indexOfFrom_present (x : A) (xs : list A) :
  forall k, includes x xs = true ->
  exists pre y post,
    xs = pre ++ y :: post /\ same y x = true /\ includes x pre = false /\
    indexOfFrom k x xs = k + Z.of_nat (List.length pre).
Proof.
  induction xs as [|y ys IH]; intros k Hx; simpl in *.
  - discriminate.
  - destruct (same y x) eqn:Hy.
    + exists [], y, ys. simpl. repeat split; auto. lia.
    + simpl in Hx. destruct (IH (k + 1) Hx) as (pre & z & post & -> & Hz & Hpre & Hidx).
      exists (y :: pre), z, post. simpl. rewrite Hy, Hpre, Hidx.
      repeat split; auto. lia.
Qed.

Lemma includes_occurrences (x : A) (xs : list A) :
  includes x xs = false <-> occurrences x xs = 0%nat.
Proof.
  unfold JsArray.includes, JsArray.occurrences.
  induction xs as [|y ys IH]; simpl.
  - tauto.
  - destruct (same y x); simpl; [split; discriminate | exact IH].
Qed.

Lemma occurrences_app (x : A) (xs ys : list A) :
  occurrences x (xs ++ ys) = (occurrences x xs + occurrences x ys)%nat.
Proof.
  unfold JsArray.occurrences. now rewrite filter_app, length_app.
Qed.

Lemma occurrences_cons (x y : A) (xs : list A) :
  occurrences x (y :: xs) =
  ((if same y x then 1 else 0) + occurrences x xs)%nat.
Proof.
  unfold JsArray.occurrences. simpl. now destruct (same y x).
Qed.

(** [splice(-1, 1)] counts from the end: it drops the last element. *)
Lemma splice_minus_one (xs : list A) :
  JsArray.splice (-1) 1 xs = removelast xs.
Proof.
  unfold JsArray.splice, JsArray.actualDeleteCount, JsArray.actualStart.
  change (-1 <? 0) with true. cbv iota.
  destruct xs as [|x xs'] eqn:E.
  - reflexivity.
  - rewrite <- E.
    assert (Hlen : (1 <= List.length xs)%nat) by (subst xs; simpl; lia).
    replace (Z.to_nat (Z.max (Z.of_nat (List.length xs) + -1) 0))
      with (pred (List.length xs)) by lia.
    replace (Z.to_nat _) with (List.length xs) by lia.
    rewrite skipn_all, app_nil_r.
    symmetry. apply removelast_firstn_len.
Qed.

(** [splice(i, 1)] at an index of the array takes out the element there. *)
Lemma splice_at (pre post : list A) (y : A) :
  JsArray.splice (Z.of_nat (List.length pre)) 1 (pre ++ y :: post) = pre ++ post.
Proof.
  unfold JsArray.splice, JsArray.actualDeleteCount, JsArray.actualStart.
  destruct (Z.ltb_spec (Z.of_nat (List.length pre)) 0) as [Hneg|_]; [lia|].
  rewrite length_app. simpl List.length.
  replace (Z.to_nat (Z.min _ _)) with (List.length pre + 0)%nat by lia.
  rewrite firstn_app_2. simpl firstn. rewrite app_nil_r.
  replace (Z.to_nat _) with (List.length pre + 1)%nat by lia.
  rewrite skipn_app.
  rewrite skipn_all2 by lia.
  replace (List.length pre + 1 - List.length pre)%nat with 1%nat by lia.
  reflexivity.
Qed.

End ArrayFacts.

(** ** Viewport *)
Section ViewportFacts.
Import Ol Layers MapObjects Js Viewport.

Lemma Qhalf_opp (h : Q) : (- h / 2)%Q = (- (h / 2))%Q.
Proof.
  destruct h as [n d]. unfold Qdiv, Qmult, Qopp, Qinv. simpl.
  f_equal. lia.
Qed.

Lemma run_setView (W H : number) (vp : Viewport) :
  run (_setView W H) vp = (Normal tt, withMap (setView (pixelView W H)) vp).
Proof.
  unfold pixelView. rewrite <- Qhalf_opp. reflexivity.
Qed.

Lemma run_addLayer_later (layer l0 : Layer) (ls : list Layer) (m : OlMap) :
  run (addLayer layer) (mkViewport m (l0 :: ls)) =
  (Normal tt, mkViewport (addToMap layer m) ((l0 :: ls) ++ [layer])).
Proof. reflexivity. Qed.

Lemma run_addLayer_first_channel (r : nat) (W H : number) (m : OlMap) :
  let layer := mkLayer r (ChannelLayer (W, H)) in
  run (addLayer layer) (mkViewport m []) =
  (Normal tt, mkViewport (setView (pixelView W H) (addToMap layer m)) [layer]).
Proof.
  intro layer. unfold pixelView. rewrite <- Qhalf_opp. reflexivity.
Qed.

Lemma run_addLayer_first_other (layer : Layer) (m : OlMap) :
  instanceofChannelLayer layer = false ->
  run (addLayer layer) (mkViewport m []) =
  (Throw invalidFirstLayer, mkViewport (addToMap layer m) []).
Proof.
  destruct layer as [r [sz|]]; unfold instanceofChannelLayer; simpl.
  - discriminate.
  - reflexivity.
Qed.

Lemma run_removeLayer (layer : Layer) (vp : Viewport) :
  run (removeLayer layer) vp =
  (Normal tt,
   mkViewport (removeFromMap layer (map vp))
     (JsArray.splice (JsArray.indexOf sameLayer layer (layers vp)) 1 (layers vp))).
Proof. reflexivity. Qed.

Lemma sameLayer_refl (layer : Layer) : sameLayer layer layer = true.
Proof. apply Nat.eqb_refl. Qed.

(** The size of the map is the size of the image of the first layer. *)
Lemma mapSize_after_first_channel (r : nat) (W H : number) (m : OlMap) :
  mapSize (snd (run (addLayer (mkLayer r (ChannelLayer (W, H))))
                    (mkViewport m []))) = (Some W, Some H).
Proof. rewrite run_addLayer_first_channel. reflexivity. Qed.

(** [update] and [renderMap] touch neither the layers nor the view. *)
Lemma update_renderMap_frame
    (measure : Element -> Size) (element : Element) (vp : Viewport) :
  (layers (snd (run (update measure) vp)) = layers vp /\
   olView (map (snd (run (update measure) vp))) = olView (map vp)) /\
  (layers (snd (run (renderMap element) vp)) = layers vp /\
   olView (map (snd (run (renderMap element) vp))) = olView (map vp) /\
   olTarget (map (snd (run (renderMap element) vp))) = Some element).
Proof. repeat split. Qed.

(** C1: on an empty list of layers [addLayer] throws, and what it throws is
    the invalid-first-layer error, if and only if the layer is not a
    ChannelLayer; on a list that is not empty it completes for every layer
    and appends it. *)
Theorem addLayer_throws_iff_first_not_channel
    (layer l0 : Layer) (ls : list Layer) (m : OlMap) :
  (forall e : Error,
     fst (run (addLayer layer) (mkViewport m [])) = Throw e <->
     e = invalidFirstLayer /\ instanceofChannelLayer layer = false) /\
  (fst (run (addLayer layer) (mkViewport m (l0 :: ls))) = Normal tt /\
   layers (snd (run (addLayer layer) (mkViewport m (l0 :: ls)))) =
   (l0 :: ls) ++ [layer]).
Proof.
  split.
  - intro e. destruct layer as [r [[W H]|]].
    + rewrite (run_addLayer_first_channel r W H m). simpl. split.
      * discriminate.
      * intros [_ Hc]. discriminate Hc.
    + rewrite run_addLayer_first_other by reflexivity. simpl. split.
      * intro He. injection He as <-. now split.
      * intros [-> _]. reflexivity.
  - rewrite run_addLayer_later. now split.
Qed.

(** C2: a ChannelLayer of image size (W, H) added as the first layer
    installs a view whose projection has the extent [0, 0, W, H] in pixels,
    whose centre is (W/2, -H/2) and whose zoom is 0. *)
Theorem addLayer_first_channel_installs_pixel_view
    (r : nat) (W H : number) (m : OlMap) :
  let layer := mkLayer r (ChannelLayer (W, H)) in
  let done := run (addLayer layer) (mkViewport m []) in
  fst done = Normal tt /\
  layers (snd done) = [layer] /\
  extent (projection (olView (map (snd done)))) = [0; 0; W; H]%Q /\
  units (projection (olView (map (snd done)))) = "pixels"%string /\
  center (olView (map (snd done))) = [W / 2; - (H / 2)]%Q /\
  zoom (olView (map (snd done))) = 0.
Proof.
  intros layer done. subst done layer.
  rewrite run_addLayer_first_channel. simpl. repeat split.
Qed.

(** C3: [removeLayer] of a layer that is not in the list of layers does not
    leave the list as it was: [indexOf] answers -1 and [splice(-1, 1)] takes
    out the last layer. *)
Theorem removeLayer_absent_drops_last (layer : Layer) (vp : Viewport) :
  JsArray.includes sameLayer layer (layers vp) = false ->
  fst (run (removeLayer layer) vp) = Normal tt /\
  layers (snd (run (removeLayer layer) vp)) = removelast (layers vp).
Proof.
  intro Habsent. rewrite run_removeLayer. simpl.
  rewrite (indexOf_absent sameLayer) by exact Habsent.
  split; [reflexivity | apply splice_minus_one].
Qed.

Lemma removeLayer_absent_drops_last_witness :
  JsArray.includes sameLayer Samples.nuclei [Samples.dapi; Samples.cells] = false /\
  layers (snd (run (removeLayer Samples.nuclei)
                   (mkViewport Samples.blankMap [Samples.dapi; Samples.cells]))) =
  [Samples.dapi].
Proof.
  split; [reflexivity|].
  apply (removeLayer_absent_drops_last Samples.nuclei
           (mkViewport Samples.blankMap [Samples.dapi; Samples.cells])).
  reflexivity.
Defined.

(** C4: when [addLayer] throws the invalid-first-layer error the list of
    layers is still empty and the view of the map is the one it had, but the
    layer is on the render list of the map: [addToMap] ran before the
    check. *)
Theorem addLayer_throw_keeps_layer_on_map (layer : Layer) (m : OlMap) :
  instanceofChannelLayer layer = false ->
  fst (run (addLayer layer) (mkViewport m [])) = Throw invalidFirstLayer /\
  layers (snd (run (addLayer layer) (mkViewport m []))) = [] /\
  olView (map (snd (run (addLayer layer) (mkViewport m [])))) = olView m /\
  olLayers (map (snd (run (addLayer layer) (mkViewport m [])))) =
  olLayers m ++ [layer].
Proof.
  intro Hother. rewrite run_addLayer_first_other by exact Hother.
  simpl. repeat split.
Qed.

Lemma addLayer_throw_keeps_layer_on_map_witness :
  instanceofChannelLayer Samples.cells = false /\
  fst (run (addLayer Samples.cells) (mkViewport Samples.blankMap [])) =
  Throw invalidFirstLayer /\
  layers (snd (run (addLayer Samples.cells) (mkViewport Samples.blankMap []))) = [] /\
  olView (map (snd (run (addLayer Samples.cells) (mkViewport Samples.blankMap [])))) =
  Samples.worldView /\
  olLayers (map (snd (run (addLayer Samples.cells) (mkViewport Samples.blankMap [])))) =
  [Samples.cells].
Proof.
  split; [reflexivity|].
  apply (addLayer_throw_keeps_layer_on_map Samples.cells Samples.blankMap).
  reflexivity.
Defined.

(** C5, as stated, fails: the view is derived again by a later [addLayer]
    that finds the list of layers empty.  The first layer is added and
    removed, and the view of the first image gives way to the view of the
    image added next. *)
Lemma later_addLayer_derives_view_again :
  let first := call (constructor Samples.worldView) (AddLayer Samples.dapi) in
  let later := calls [RemoveLayer Samples.dapi; AddLayer Samples.actin] first in
  layers first = [Samples.dapi] /\
  olView (map first) = pixelView 10%Q 7%Q /\
  layers later = [Samples.actin] /\
  olView (map later) = pixelView 20%Q 16%Q /\
  olView (map later) <> olView (map first).
Proof.
  repeat split; try reflexivity.
  intro Heq. vm_compute in Heq. discriminate Heq.
Qed.

(** C5, amended: on a list of layers that is not empty [addLayer] appends the
    layer and leaves the view of the map as it was; [removeLayer] leaves the
    view as it was in every state; and [addLayer] of a ChannelLayer derives
    the view whenever it finds the list empty, the first time or later. *)
Theorem view_derived_only_by_addLayer_on_empty
    (layer l0 : Layer) (ls : list Layer) (m : OlMap) (vp : Viewport)
    (r : nat) (W H : number) :
  (fst (run (addLayer layer) (mkViewport m (l0 :: ls))) = Normal tt /\
   layers (snd (run (addLayer layer) (mkViewport m (l0 :: ls)))) =
   (l0 :: ls) ++ [layer] /\
   olView (map (snd (run (addLayer layer) (mkViewport m (l0 :: ls))))) =
   olView m) /\
  olView (map (snd (run (removeLayer layer) vp))) = olView (map vp) /\
  olView (map (snd (run (addLayer (mkLayer r (ChannelLayer (W, H))))
                        (mkViewport m [])))) = pixelView W H.
Proof.
  rewrite run_addLayer_later, run_removeLayer, run_addLayer_first_channel.
  simpl. repeat split.
Qed.

(** C6: a layer that is in the list of layers once is in it once again after
    [removeLayer] followed by [addLayer], provided [addLayer] finds the list
    not empty or the layer is a ChannelLayer; both calls complete. *)
Theorem removeLayer_then_addLayer_keeps_one (layer : Layer) (vp : Viewport) :
  JsArray.occurrences sameLayer layer (layers vp) = 1%nat ->
  layers (snd (run (removeLayer layer) vp)) <> [] \/
  instanceofChannelLayer layer = true ->
  fst (run (removeLayer layer) vp) = Normal tt /\
  fst (run (addLayer layer) (snd (run (removeLayer layer) vp))) = Normal tt /\
  JsArray.occurrences sameLayer layer
    (layers (snd (run (addLayer layer) (snd (run (removeLayer layer) vp))))) = 1%nat.
Proof.
  intros Hone Hadd. rewrite run_removeLayer in *. simpl in *.
  assert (Hin : JsArray.includes sameLayer layer (layers vp) = true).
  { destruct (JsArray.includes sameLayer layer (layers vp)) eqn:E; [reflexivity|].
    apply includes_occurrences in E. rewrite E in Hone. discriminate. }
  destruct (indexOfFrom_present sameLayer layer (layers vp) 0 Hin)
    as (pre & y & post & Hsplit & Hy & Hpre & Hidx).
  unfold JsArray.indexOf in *. rewrite Hidx, Hsplit in *. simpl Z.add in *.
  rewrite splice_at in *.
  rewrite occurrences_app, occurrences_cons, Hy in Hone.
  assert (Hrest : JsArray.occurrences sameLayer layer (pre ++ post) = 0%nat)
    by (rewrite occurrences_app; lia).
  split; [reflexivity|].
  destruct (pre ++ post) as [|l0 ls] eqn:Erest.
  - destruct Hadd as [Hne | Hch]; [now elim Hne|].
    destruct layer as [r [[W H]|]]; [|discriminate Hch].
    rewrite (run_addLayer_first_channel r W H). simpl. split; [reflexivity|].
    rewrite occurrences_cons, sameLayer_refl. reflexivity.
  - rewrite run_addLayer_later. simpl. split; [reflexivity|].
    change (l0 :: ls ++ [layer]) with ((l0 :: ls) ++ [layer]).
    rewrite occurrences_app, Hrest, occurrences_cons, sameLayer_refl.
    reflexivity.
Qed.

Lemma removeLayer_then_addLayer_keeps_one_witness :
  JsArray.occurrences sameLayer Samples.cells
    (layers (snd (run (addLayer Samples.cells)
       (snd (run (removeLayer Samples.cells)
          (mkViewport Samples.blankMap [Samples.dapi; Samples.cells])))))) = 1%nat.
Proof.
  apply (removeLayer_then_addLayer_keeps_one Samples.cells
           (mkViewport Samples.blankMap [Samples.dapi; Samples.cells])).
  - reflexivity.
  - left. discriminate.
Defined.

Section Fit.
Variable fit : SimpleGeometry -> option Size -> FitOptions -> View -> View.

Lemma run_goToMapObject (obj : MapObject) (vp : Viewport) :
  run (goToMapObject fit obj) vp =
  (Normal tt,
   mkViewport
     (setView (fit (geometry (olFeature (getVisual obj))) (olSize (map vp))
                   (mkFitOptions [100; 100; 100; 100]%Q) (olView (map vp)))
              (map vp))
     (layers vp)).
Proof. reflexivity. Qed.

(** C7: [goToMapObject] leaves the list of layers as it was; of the map it
    changes the view and nothing else. *)
Theorem goToMapObject_keeps_layers (obj : MapObject) (vp : Viewport) :
  fst (run (goToMapObject fit obj) vp) = Normal tt /\
  layers (snd (run (goToMapObject fit obj) vp)) = layers vp /\
  olLayers (map (snd (run (goToMapObject fit obj) vp))) = olLayers (map vp) /\
  olTarget (map (snd (run (goToMapObject fit obj) vp))) = olTarget (map vp) /\
  olSize (map (snd (run (goToMapObject fit obj) vp))) = olSize (map vp).
Proof.
  rewrite run_goToMapObject. simpl. repeat split.
Qed.

(** C8: [goToMapObject] fits the view of the map to the geometry of the
    feature of the visual of the object, in the size of the map, with a
    padding of four sides, each of them 100. *)
Theorem goToMapObject_fits_with_padding_100 (obj : MapObject) (vp : Viewport) :
  exists options : FitOptions,
    olView (map (snd (run (goToMapObject fit obj) vp))) =
    fit (geometry (olFeature (getVisual obj))) (olSize (map vp)) options
        (olView (map vp)) /\
    List.length (padding options) = 4%nat /\
    Forall (fun side => side = 100%Q) (padding options).
Proof.
  exists (mkFitOptions [100; 100; 100; 100]%Q).
  rewrite run_goToMapObject. simpl.
  split; [reflexivity|]. split; [reflexivity|].
  repeat constructor.
Qed.

End Fit.

(** C9: [serialize] returns an object with no property, in every state, and
    leaves the state as it was. *)
Theorem serialize_returns_empty_object (vp : Viewport) :
  exists result : Value,
    run serialize vp = (Normal result, vp) /\
    result = Obj [] /\
    forall key : string, getProperty key result = None.
Proof.
  exists (Obj []). repeat split.
Qed.

End ViewportFacts.

(** ** ToolbarCtrl *)
Section ToolbarFacts.
Import Toolbar.
Context {Tool : Type}.

Lemma invoke_frame (w : World Tool) (job : Callback * list Tool) :
  viewerTools (invoke w job) = viewerTools w /\
  queue (invoke w job) = queue w /\
  toggleToolWindow (invoke w job) = toggleToolWindow w.
Proof. destruct job as [[] ts]. simpl. repeat split. Qed.

Lemma run_jobs_frame (jobs : list (Callback * list Tool)) :
  forall w : World Tool,
    viewerTools (fold_left invoke jobs w) = viewerTools w /\
    queue (fold_left invoke jobs w) = queue w /\
    toggleToolWindow (fold_left invoke jobs w) = toggleToolWindow w.
Proof.
  induction jobs as [|job jobs IH]; intro w; simpl.
  - repeat split.
  - destruct (IH (invoke w job)) as (Hp & Hq & Ht).
    destruct (invoke_frame w job) as (Hp' & Hq' & Ht').
    rewrite Hp, Hq, Ht. auto.
Qed.

(** The callbacks of one resolution all store the resolved list. *)
Lemma run_jobs_tools (ts : list Tool) (cbs : list Callback) :
  forall w : World Tool,
    tools (fold_left invoke (List.map (fun cb => (cb, ts)) cbs) w) =
    match cbs with [] => tools w | _ => ts end.
Proof.
  induction cbs as [|[] cbs IH]; intro w; simpl.
  - reflexivity.
  - rewrite IH. now destruct cbs.
Qed.

(** C10: before the tool list resolves the tools of the controller are the
    empty list; once it has resolved with [A, B] they are [A, B]; and
    [clickToolTab A] hands the sibling controller one request, for A, and
    changes nothing else. *)
Theorem toolbar_tools_follow_resolution_and_click_forwards
    (A B : Tool) (waiting : list Callback) (received : list Tool) :
  let built := constructor (mkPromise None waiting) received in
  let resolved := digest (resolve [A; B] built) in
  let clicked := clickToolTab A resolved in
  (tools built = [] /\ tools (digest built) = []) /\
  tools resolved = [A; B] /\
  toggleToolWindow clicked = toggleToolWindow resolved ++ [A] /\
  toggleToolWindow resolved = received /\
  tools clicked = tools resolved /\
  viewerTools clicked = viewerTools resolved /\
  queue clicked = queue resolved.
Proof.
  intros built resolved clicked. subst clicked resolved built.
  unfold constructor, then_, resolve, digest. simpl.
  rewrite run_jobs_tools.
  split; [split; reflexivity|].
  split; [now destruct waiting|].
  split; [reflexivity|].
  split; [|repeat split].
  apply run_jobs_frame.
Qed.

End ToolbarFacts.

(** * Further properties *)

(** ** Arrays, continued *)
Section ArrayIndexFacts.
Context {A : Type}.
Variable same : A -> A -> bool.

(** [indexOf] stops at the first element that is the object looked for. *)
Lemma indexOfFrom_first (x y : A) (pre post : list A) :
  forall k,
    JsArray.includes same x pre = false -> same y x = true ->
    JsArray.indexOfFrom same k x (pre ++ y :: post) = k + Z.of_nat (List.length pre).
Proof.
  induction pre as [|p pre IH]; intros k Hpre Hy; simpl in *.
  - rewrite Hy. lia.
  - apply orb_false_iff in Hpre. destruct Hpre as [Hp Hpre].
    rewrite Hp, IH by assumption. lia.
Qed.

(** Whatever [indexOf] answers, [splice] at that index with a count of one
    takes one element out of an array that has any. *)
Lemma splice_indexOf_length (x : A) (xs : list A) :
  List.length (JsArray.splice (JsArray.indexOf same x xs) 1 xs) =
  pred (List.length xs).
Proof.
  destruct (JsArray.includes same x xs) eqn:Hin.
  - destruct (indexOfFrom_present same x xs 0 Hin)
      as (pre & y & post & -> & _ & _ & Hidx).
    unfold JsArray.indexOf. rewrite Hidx. simpl Z.add.
    rewrite splice_at, !length_app. simpl. lia.
  - rewrite indexOf_absent, splice_minus_one by assumption.
    rewrite removelast_firstn_len, length_firstn. lia.
Qed.

End ArrayIndexFacts.

(** ** Viewport, continued *)
Section ViewportRuns.
Import Ol Layers MapObjects Js Viewport.

Lemma calls_addLayer_later (more : list Layer) :
  forall (m : OlMap) (l0 : Layer) (ls : list Layer),
    calls (List.map AddLayer more) (mkViewport m (l0 :: ls)) =
    mkViewport (mkOlMap (olLayers m ++ more) (olView m) (olTarget m) (olSize m))
               ((l0 :: ls) ++ more).
Proof.
  induction more as [|x more IH]; intros m l0 ls; simpl.
  - rewrite !app_nil_r. now destruct m.
  - unfold calls in *. unfold call at 2. simpl method.
    rewrite run_addLayer_later. simpl snd.
    change (l0 :: ls ++ [x]) with (l0 :: (ls ++ [x])).
    rewrite IH. simpl. unfold JsArray.push.
    rewrite <- (app_assoc (olLayers m)), <- (app_assoc ls). reflexivity.
Qed.

(** X1: when a ChannelLayer of size (W, H) is added to an empty Viewport and
    any layers are added after it, the list of layers holds them all in the
    order of the calls, the render list of the map has grown by the same
    layers, and the size of the map is (W, H), the size of the first image,
    whatever was added next. *)
Theorem addLayer_run_keeps_order_and_first_size
    (r : nat) (W H : number) (more : list Layer) (m : OlMap) :
  let first := mkLayer r (ChannelLayer (W, H)) in
  let vp := calls (List.map AddLayer (first :: more)) (mkViewport m []) in
  layers vp = first :: more /\
  olLayers (map vp) = olLayers m ++ first :: more /\
  olView (map vp) = pixelView W H /\
  mapSize vp = (Some W, Some H).
Proof.
  intros first vp.
  assert (E : vp =
              mkViewport
                (mkOlMap (olLayers m ++ first :: more) (pixelView W H)
                         (olTarget m) (olSize m))
                (first :: more)).
  { subst vp.
    change (calls (List.map AddLayer (first :: more)) (mkViewport m []))
      with (calls (List.map AddLayer more)
              (snd (run (addLayer first) (mkViewport m [])))).
    subst first. rewrite run_addLayer_first_channel. simpl snd.
    rewrite calls_addLayer_later. simpl. unfold JsArray.push.
    rewrite <- app_assoc. reflexivity. }
  rewrite E. repeat split.
Qed.

(** X2: [removeLayer] of a layer that is in the list takes out its first
    occurrence and keeps the other layers in their order. *)
Theorem removeLayer_present_takes_first_occurrence
    (layer : Layer) (vp : Viewport) :
  JsArray.includes sameLayer layer (layers vp) = true ->
  exists (pre : list Layer) (found : Layer) (post : list Layer),
    layers vp = pre ++ found :: post /\
    sameLayer found layer = true /\
    JsArray.includes sameLayer layer pre = false /\
    fst (run (removeLayer layer) vp) = Normal tt /\
    layers (snd (run (removeLayer layer) vp)) = pre ++ post.
Proof.
  intro Hin.
  destruct (indexOfFrom_present sameLayer layer (layers vp) 0 Hin)
    as (pre & y & post & Hsplit & Hy & Hpre & Hidx).
  exists pre, y, post. rewrite run_removeLayer. simpl.
  unfold JsArray.indexOf. rewrite Hidx, Hsplit. simpl Z.add.
  rewrite splice_at. repeat split; assumption.
Qed.

Lemma removeLayer_present_takes_first_occurrence_witness :
  exists (pre : list Layer) (found : Layer) (post : list Layer),
    [Samples.dapi; Samples.cells; Samples.nuclei] = pre ++ found :: post /\
    sameLayer found Samples.cells = true /\
    JsArray.includes sameLayer Samples.cells pre = false /\
    fst (run (removeLayer Samples.cells)
           (mkViewport Samples.blankMap
              [Samples.dapi; Samples.cells; Samples.nuclei])) = Normal tt /\
    layers (snd (run (removeLayer Samples.cells)
                   (mkViewport Samples.blankMap
                      [Samples.dapi; Samples.cells; Samples.nuclei]))) =
    pre ++ post.
Proof.
  apply (removeLayer_present_takes_first_occurrence Samples.cells
           (mkViewport Samples.blankMap
              [Samples.dapi; Samples.cells; Samples.nuclei])).
  reflexivity.
Defined.

(** X3: [removeLayer] completes for every layer, and takes exactly one layer
    out of a list that is not empty, whether the layer it is given is in the
    list or not; an empty list stays empty. *)
Theorem removeLayer_always_shrinks_by_one (layer : Layer) (vp : Viewport) :
  fst (run (removeLayer layer) vp) = Normal tt /\
  List.length (layers (snd (run (removeLayer layer) vp))) =
  pred (List.length (layers vp)).
Proof.
  rewrite run_removeLayer. simpl. split; [reflexivity|].
  apply splice_indexOf_length.
Qed.

(** X4: for a layer that is not in the list, an [addLayer] that completes
    followed by [removeLayer] of the same layer gives back the list of
    layers as it was. *)
Theorem addLayer_then_removeLayer_restores_layers
    (layer : Layer) (vp : Viewport) :
  JsArray.includes sameLayer layer (layers vp) = false ->
  fst (run (addLayer layer) vp) = Normal tt ->
  layers (snd (run (removeLayer layer) (snd (run (addLayer layer) vp)))) =
  layers vp.
Proof.
  intros Habsent Hadd. destruct vp as [m ls]. simpl in Habsent.
  assert (Hlayers : layers (snd (run (addLayer layer) (mkViewport m ls))) =
                    ls ++ [layer]).
  { destruct ls as [|l0 ls].
    - destruct layer as [r [[W H]|]].
      + rewrite (run_addLayer_first_channel r W H m). reflexivity.
      + rewrite run_addLayer_first_other in Hadd by reflexivity.
        discriminate Hadd.
    - rewrite run_addLayer_later. reflexivity. }
  rewrite run_removeLayer, Hlayers. cbn [snd layers].
  unfold JsArray.indexOf.
  rewrite (indexOfFrom_first sameLayer layer layer ls [] 0 Habsent
             (sameLayer_refl layer)).
  simpl Z.add. rewrite splice_at. apply app_nil_r.
Qed.

Lemma addLayer_then_removeLayer_restores_layers_witness :
  layers (snd (run (removeLayer Samples.cells)
                 (snd (run (addLayer Samples.cells)
                         (mkViewport Samples.blankMap [Samples.dapi]))))) =
  [Samples.dapi].
Proof.
  apply (addLayer_then_removeLayer_restores_layers Samples.cells
           (mkViewport Samples.blankMap [Samples.dapi])); reflexivity.
Defined.

(** X5: [addLayer] does not look whether the layer is in the list already:
    on a list that is not empty the layer occurs once more than before, and
    the list is one longer. *)
Theorem addLayer_adds_an_occurrence
    (layer l0 : Layer) (ls : list Layer) (m : OlMap) :
  JsArray.occurrences sameLayer layer
    (layers (snd (run (addLayer layer) (mkViewport m (l0 :: ls))))) =
  S (JsArray.occurrences sameLayer layer (l0 :: ls)) /\
  List.length (layers (snd (run (addLayer layer) (mkViewport m (l0 :: ls))))) =
  S (List.length (l0 :: ls)).
Proof.
  rewrite run_addLayer_later. cbn [snd layers].
  rewrite occurrences_app, length_app.
  rewrite (occurrences_cons sameLayer layer layer []), sameLayer_refl.
  change (JsArray.occurrences sameLayer layer []) with 0%nat.
  split; [lia | simpl; lia].
Qed.

Lemma call_keeps_view_settled (c : Call) (vp : Viewport) :
  layers vp = [] \/ (exists W H, olView (map vp) = pixelView W H) ->
  layers (call vp c) = [] \/
  (exists W H, olView (map (call vp c)) = pixelView W H).
Proof.
  intro Hinv. destruct vp as [m ls]. unfold call.
  destruct c as [layer|layer]; cbn [method].
  - destruct ls as [|l0 ls].
    + destruct layer as [r [[W H]|]].
      * rewrite (run_addLayer_first_channel r W H m).
        right. exists W, H. reflexivity.
      * rewrite run_addLayer_first_other by reflexivity. left. reflexivity.
    + rewrite run_addLayer_later.
      destruct Hinv as [Hnil | (W & H & Hview)]; [discriminate Hnil|].
      right. exists W, H. exact Hview.
  - rewrite run_removeLayer. cbn [snd layers map].
    destruct Hinv as [Hnil | (W & H & Hview)].
    + simpl in Hnil. subst ls. left. reflexivity.
    + right. exists W, H. exact Hview.
Qed.

Lemma calls_keep_view_settled (cs : list Call) :
  forall vp : Viewport,
    layers vp = [] \/ (exists W H, olView (map vp) = pixelView W H) ->
    layers (calls cs vp) = [] \/
    (exists W H, olView (map (calls cs vp)) = pixelView W H).
Proof.
  induction cs as [|c cs IH]; intros vp Hinv.
  - exact Hinv.
  - apply (IH (call vp c)). now apply call_keeps_view_settled.
Qed.

(** X6: in every state a new Viewport reaches through calls of [addLayer]
    and [removeLayer], those that throw included, either the list of layers
    is empty or the view of the map is a pixel view of some image size
    (W, H), and then the size of the map reads (W, H). *)
Theorem layers_imply_pixel_view (defaultView : View) (cs : list Call) :
  layers (calls cs (constructor defaultView)) = [] \/
  (exists W H : number,
     olView (map (calls cs (constructor defaultView))) = pixelView W H /\
     mapSize (calls cs (constructor defaultView)) = (Some W, Some H)).
Proof.
  destruct (calls_keep_view_settled cs (constructor defaultView))
    as [Hnil | (W & H & Hview)].
  - left. reflexivity.
  - left. exact Hnil.
  - right. exists W, H. split; [exact Hview|].
    unfold mapSize. rewrite Hview. reflexivity.
Qed.

(** X7: the size of the map is not derived again when the layer it came
    from is removed.  A ChannelLayer of size (W, H) is added first, another
    layer after it, and the first is removed: the list holds the other layer
    alone and the size of the map still reads (W, H). *)
Theorem mapSize_outlives_first_layer
    (r : nat) (W H : number) (next : Layer) (m : OlMap) :
  let first := mkLayer r (ChannelLayer (W, H)) in
  let vp := calls [AddLayer first; AddLayer next; RemoveLayer first]
                  (mkViewport m []) in
  layers vp = [next] /\ mapSize vp = (Some W, Some H).
Proof.
  intros first vp.
  assert (E : vp =
              mkViewport
                (removeFromMap first
                   (addToMap next (setView (pixelView W H) (addToMap first m))))
                [next]).
  { subst vp. unfold calls. cbn [fold_left]. unfold call. cbn [method].
    subst first. rewrite run_addLayer_first_channel. cbn [snd].
    rewrite run_addLayer_later. cbn [snd].
    rewrite run_removeLayer. cbn [snd layers map].
    unfold JsArray.indexOf. cbn [app JsArray.indexOfFrom].
    rewrite sameLayer_refl. reflexivity. }
  rewrite E. split; reflexivity.
Qed.

(** X8: on a list of one layer [removeLayer] of any layer, the one in the
    list or another, leaves the list empty, and the first-layer check holds
    again: [addLayer] of a layer that is not a ChannelLayer throws. *)
Theorem removeLayer_of_last_layer_restores_first_layer_check
    (l0 x other : Layer) (m : OlMap) :
  instanceofChannelLayer other = false ->
  layers (snd (run (removeLayer x) (mkViewport m [l0]))) = [] /\
  fst (run (addLayer other) (snd (run (removeLayer x) (mkViewport m [l0])))) =
  Throw invalidFirstLayer.
Proof.
  intro Hother.
  assert (E : snd (run (removeLayer x) (mkViewport m [l0])) =
              mkViewport (removeFromMap x m) []).
  { rewrite run_removeLayer. cbn [snd layers map].
    unfold JsArray.indexOf. cbn [JsArray.indexOfFrom].
    now destruct (sameLayer l0 x). }
  rewrite E. split; [reflexivity|].
  now rewrite run_addLayer_first_other.
Qed.

Lemma removeLayer_of_last_layer_restores_first_layer_check_witness :
  layers (snd (run (removeLayer Samples.nuclei)
                 (mkViewport Samples.blankMap [Samples.dapi]))) = [] /\
  fst (run (addLayer Samples.cells)
         (snd (run (removeLayer Samples.nuclei)
                 (mkViewport Samples.blankMap [Samples.dapi])))) =
  Throw invalidFirstLayer.
Proof.
  apply (removeLayer_of_last_layer_restores_first_layer_check
           Samples.dapi Samples.nuclei Samples.cells Samples.blankMap).
  reflexivity.
Defined.

End ViewportRuns.

(** ** ToolbarCtrl, continued *)
Section ToolbarRuns.
Import Toolbar.
Context {Tool : Type}.

(** X9: the buttons pressed reach the sibling controller one request each,
    in the order pressed, whether or not the tool is among the tools of the
    controller; the tools, the promise and the queue stay as they were. *)
Theorem clicks_forward_in_order (pressed : list Tool) :
  forall w : World Tool,
    toggleToolWindow (clicks pressed w) = toggleToolWindow w ++ pressed /\
    tools (clicks pressed w) = tools w /\
    viewerTools (clicks pressed w) = viewerTools w /\
    queue (clicks pressed w) = queue w.
Proof.
  induction pressed as [|tool pressed IH]; intro w.
  - simpl. rewrite app_nil_r. repeat split.
  - unfold clicks in *. cbn [fold_left].
    destruct (IH (clickToolTab tool w)) as (Ht & Hs & Hp & Hq).
    rewrite Ht, Hs, Hp, Hq. simpl. rewrite <- app_assoc. repeat split.
Qed.

Lemma run_jobs_click (tool : Tool) (jobs : list (Callback * list Tool)) :
  forall w : World Tool,
    fold_left invoke jobs (clickToolTab tool w) =
    clickToolTab tool (fold_left invoke jobs w).
Proof.
  induction jobs as [|[[] ts] jobs IH]; intro w; simpl.
  - reflexivity.
  - rewrite <- IH. reflexivity.
Qed.

(** X10: a press of a button and the arrival of the tool list do not
    interfere: pressed before the list resolves or after, the sibling
    controller has the same requests and the controller the same tools. *)
Theorem click_commutes_with_resolution
    (tool : Tool) (ts : list Tool) (w : World Tool) :
  digest (resolve ts (clickToolTab tool w)) =
  clickToolTab tool (digest (resolve ts w)).
Proof.
  unfold digest, resolve. simpl.
  destruct (settled (viewerTools w)); simpl; rewrite <- run_jobs_click; reflexivity.
Qed.

End ToolbarRuns.
